(** * HID over I2C, ACPI subclass: the adapter of drivers/hid/i2c-hid/i2c-hid-acpi.c

    The file is a thin adapter between the kernel's driver core, the ACPI
    firmware interface and the shared HID-over-I2C core driver.  Everything it
    does is a sequence of calls into the kernel, guarded by error checks, plus
    one flag of its own ([power_fixed]).

    The embedding keeps that shape: a driver routine is a finite tree of
    kernel calls ([prog]), the answers of the kernel come from an arbitrary
    handler over an arbitrary kernel state, and running a routine yields its
    return value, the adapter's memory, the kernel state and the trace of the
    calls made, in order. *)

From Stdlib Require Import ZArith List String Ascii Lia.
From stdpp Require Import gmap.
Import ListNotations.

Local Open Scope Z_scope.

(** ** Kernel objects

    The adapter only passes these around; they are addresses to it. *)

(** [struct i2c_client *]. *)
Definition i2c_client := N.
(** [acpi_handle]. *)
Definition acpi_handle := N.
(** [struct acpi_device *]. *)
Definition acpi_device := N.
(** Address of a [struct i2c_hid_acpi] obtained from [devm_kzalloc]. *)
Definition ptr := N.

(** [&client->dev]: the device embedded in an I2C client. *)
Inductive device : Type :=
| dev_of (client : i2c_client).

(** [&ihid_acpi->subclass]: the subclass descriptor embedded in an adapter
    record; [container_of] goes back to the record. *)
Inductive subclass_ref : Type :=
| subclass_of (ihid_acpi : ptr).

Definition container_of (subclass : subclass_ref) : ptr :=
  match subclass with subclass_of p => p end.

(** The value a [power_up_device] function pointer can take in this file. *)
Inductive callback : Type :=
| fn_i2c_hid_acpi_power_up_device.

(** [struct i2chid_subclass_data] (declared in i2c-hid.h): the one member the
    adapter fills in, a function pointer that is NULL ([None]) until then. *)
Record i2chid_subclass_data : Type := {
  power_up_device : option callback
}.

(** [struct i2c_hid_acpi], lines 31-35. *)
Record i2c_hid_acpi : Type := {
  subclass : i2chid_subclass_data;
  client : i2c_client;
  power_fixed : bool
}.

(** The record in zeroed memory: no callback, a NULL client, flag clear. *)
Definition zeroed : i2c_hid_acpi :=
  {| subclass := {| power_up_device := None |};
     client := 0%N;
     power_fixed := false |}.

(** The assignments [r->client = c], [r->subclass.power_up_device = f] and
    [r->power_fixed = b]. *)
Definition set_client (c : i2c_client) (r : i2c_hid_acpi) : i2c_hid_acpi :=
  {| subclass := subclass r; client := c; power_fixed := power_fixed r |}.

Definition set_power_up_device (f : option callback) (r : i2c_hid_acpi)
  : i2c_hid_acpi :=
  {| subclass := {| power_up_device := f |};
     client := client r;
     power_fixed := power_fixed r |}.

Definition set_power_fixed (b : bool) (r : i2c_hid_acpi) : i2c_hid_acpi :=
  {| subclass := subclass r; client := client r; power_fixed := b |}.

(** [struct acpi_device_id]: an identifier string and driver data. *)
Record acpi_device_id : Type := {
  id : string;
  driver_data : Z
}.

(** The blacklist table, lines 37-44, with its empty terminating entry. *)
Definition i2c_hid_acpi_blacklist : list acpi_device_id :=
  [ {| id := "CHPN0001"; driver_data := 0 |};
    {| id := ""; driver_data := 0 |} ].

(** The ACPI match table, lines 136-140. *)
Definition i2c_hid_acpi_match : list acpi_device_id :=
  [ {| id := "ACPI0C50"; driver_data := 0 |};
    {| id := "PNP0C50"; driver_data := 0 |};
    {| id := ""; driver_data := 0 |} ].

(** A GUID as the arguments of [GUID_INIT]. *)
Inductive guid_t : Type :=
| GUID_INIT (a b c d0 d1 d2 d3 d4 d5 d6 d7 : Z).

(** The _DSM GUID of HID over I2C, lines 48-50. *)
Definition i2c_hid_guid : guid_t :=
  GUID_INIT 0x3CDFF6F7 0x4267 0x4555
            0xAD 0x05 0xB3 0x0A 0x3D 0x89 0x38 0xDE.

(** The ACPI object types and power states the file names. *)
Inductive acpi_object_type : Type :=
| ACPI_TYPE_INTEGER.

Inductive acpi_power_state : Type :=
| ACPI_STATE_D3_COLD.

(** A [union acpi_object] of integer type: [obj->integer.value]. *)
Record acpi_object : Type := {
  integer_value : Z
}.

(** Constants and globals of the kernel headers, none of which is part of the
    file: the two errno values, the FADT flag bit for low-power S0 idle and
    the flags word of the firmware's FADT ([acpi_gbl_FADT.flags]). *)
Class Platform : Type := {
  ENODEV : Z;
  ENOMEM : Z;
  ACPI_FADT_LOW_POWER_S0 : Z;
  acpi_gbl_FADT_flags : Z
}.

(** Conversion of an integer to [u16]. *)
Definition to_u16 (v : Z) : Z := v mod 2 ^ 16.

(** The newline that ends the [dev_err] messages, and the two messages
    (lines 58 and 68). *)
Definition nl : string := String (ascii_of_nat 10) EmptyString.

Definition no_acpi_device_msg : string :=
  "Error could not get ACPI device" ++ nl.

Definition dsm_failed_msg : string :=
  "Error _DSM call to get HID descriptor address failed" ++ nl.

(** ** Kernel calls

    One constructor per function or macro of the kernel that the file uses;
    the index is the type of the answer.  A pointer result that may be NULL
    is an [option]. *)
Inductive kernelE : Type -> Type :=
  (* the size and the GFP flags are left out *)
| devm_kzalloc (dev : device) : kernelE (option ptr)
| dev_err (dev : device) (msg : string) : kernelE unit
| ACPI_HANDLE (dev : device) : kernelE (option acpi_handle)
| ACPI_COMPANION (dev : device) : kernelE (option acpi_device)
  (* [None]: a status other than 0; [Some adev]: status 0, [adev] stored
     through the second argument. *)
| acpi_bus_get_device (handle : acpi_handle) : kernelE (option acpi_device)
| acpi_match_device_ids (adev : acpi_device) (ids : list acpi_device_id)
    : kernelE Z
| acpi_evaluate_dsm_typed (handle : acpi_handle) (guid : guid_t)
    (rev func : Z) (argv4 : option acpi_object) (type : acpi_object_type)
    : kernelE (option acpi_object)
| ACPI_FREE (obj : acpi_object) : kernelE unit
| acpi_device_fix_up_power (adev : acpi_device) : kernelE Z
| acpi_device_set_power (adev : option acpi_device)
    (state : acpi_power_state) : kernelE Z
| device_set_wakeup_capable (dev : device) (capable : bool) : kernelE unit
| device_set_wakeup_enable (dev : device) (enable : bool) : kernelE Z
| i2c_hid_core_probe (client : i2c_client) (subclass : subclass_ref)
    (hid_descriptor_address : Z) : kernelE Z
| i2c_hid_core_shutdown (client : i2c_client) : kernelE unit.

(** ** Driver routines as trees of kernel calls *)

Inductive prog (R : Type) : Type :=
| Ret (r : R)
| Call {X : Type} (e : kernelE X) (k : X -> prog R)
  (* read the adapter record at [p]; stuck when nothing is allocated there *)
| Get (p : ptr) (k : i2c_hid_acpi -> prog R)
  (* write the adapter record at [p] *)
| Put (p : ptr) (v : i2c_hid_acpi) (k : prog R).

Arguments Ret {R} r.
Arguments Call {R X} e k.
Arguments Get {R} p k.
Arguments Put {R} p v k.

Fixpoint bind {A B : Type} (m : prog A) (f : A -> prog B) : prog B :=
  match m with
  | Ret r => f r
  | Call e k => Call e (fun x => bind (k x) f)
  | Get p k => Get p (fun v => bind (k v) f)
  | Put p v k => Put p v (bind k f)
  end.

Definition call {X : Type} (e : kernelE X) : prog X := Call e Ret.
Definition get (p : ptr) : prog i2c_hid_acpi := Get p Ret.
Definition put (p : ptr) (v : i2c_hid_acpi) : prog unit := Put p v (Ret tt).

(** An assignment to a member of the record at [p]. *)
Definition modify (p : ptr) (f : i2c_hid_acpi -> i2c_hid_acpi) : prog unit :=
  Get p (fun r => Put p (f r) (Ret tt)).

Declare Scope prog_scope.
Delimit Scope prog_scope with prog.
Bind Scope prog_scope with prog.
Notation "x <- m ;; k" := (bind m (fun x => k))
  (at level 20, m at level 99, k at level 200, only parsing) : prog_scope.
Notation "m ;; k" := (bind m (fun _ => k))
  (at level 100, k at level 200, right associativity, only parsing)
  : prog_scope.
Local Open Scope prog_scope.

(** ** The adapter's routines *)

Section Routines.
Context {P : Platform}.

(** Lines 46-76. *)
Definition i2c_hid_acpi_get_descriptor (client : i2c_client) : prog Z :=
  handle <- call (ACPI_HANDLE (dev_of client)) ;;
  match handle with
  | None =>
      call (dev_err (dev_of client) no_acpi_device_msg) ;;
      Ret (- ENODEV)
  | Some handle =>
      adev <- call (acpi_bus_get_device handle) ;;
      match adev with
      | None =>
          call (dev_err (dev_of client) no_acpi_device_msg) ;;
          Ret (- ENODEV)
      | Some adev =>
          m <- call (acpi_match_device_ids adev i2c_hid_acpi_blacklist) ;;
          if m =? 0 then Ret (- ENODEV)
          else
            obj <- call (acpi_evaluate_dsm_typed handle i2c_hid_guid 1 1
                           None ACPI_TYPE_INTEGER) ;;
            match obj with
            | None =>
                call (dev_err (dev_of client) dsm_failed_msg) ;;
                Ret (- ENODEV)
            | Some obj =>
                let hid_descriptor_address := to_u16 (integer_value obj) in
                call (ACPI_FREE obj) ;;
                Ret hid_descriptor_address
            end
      end
  end.

(** Lines 78-95. *)
Definition i2c_hid_acpi_power_up_device (subclass : subclass_ref) : prog Z :=
  let ihid_of := container_of subclass in
  r <- get ihid_of ;;
  let dev := dev_of (client r) in
  (* Only need to call acpi_device_fix_up_power() the first time *)
  if power_fixed r then Ret 0
  else
    modify ihid_of (set_power_fixed true) ;;
    adev <- call (ACPI_COMPANION dev) ;;
    match adev with
    | Some adev => call (acpi_device_fix_up_power adev) ;; Ret tt
    | None => Ret tt
    end ;;
    Ret 0.

(** Lines 97-124.  The memory [devm_kzalloc] hands out is zeroed. *)
Definition i2c_hid_acpi_probe (client : i2c_client) : prog Z :=
  let dev := dev_of client in
  ihid_acpi <- call (devm_kzalloc dev) ;;
  match ihid_acpi with
  | None => Ret (- ENOMEM)
  | Some ihid_acpi =>
      put ihid_acpi zeroed ;;
      modify ihid_acpi (set_client client) ;;
      modify ihid_acpi
        (set_power_up_device (Some fn_i2c_hid_acpi_power_up_device)) ;;
      ret <- i2c_hid_acpi_get_descriptor client ;;
      if ret <? 0 then Ret ret
      else
        let hid_descriptor_address := to_u16 ret in
        (if Z.land acpi_gbl_FADT_flags ACPI_FADT_LOW_POWER_S0 =? 0
         then Ret tt
         else
           call (device_set_wakeup_capable dev true) ;;
           call (device_set_wakeup_enable dev false) ;;
           Ret tt) ;;
        call (i2c_hid_core_probe client (subclass_of ihid_acpi)
                hid_descriptor_address)
  end.

(** Lines 126-130. *)
Definition i2c_hid_acpi_shutdown (client : i2c_client) : prog unit :=
  call (i2c_hid_core_shutdown client) ;;
  adev <- call (ACPI_COMPANION (dev_of client)) ;;
  call (acpi_device_set_power adev ACPI_STATE_D3_COLD) ;;
  Ret tt.

End Routines.

(** The routine a callback value stands for. *)
Definition callback_body (f : callback) : subclass_ref -> prog Z :=
  match f with
  | fn_i2c_hid_acpi_power_up_device => i2c_hid_acpi_power_up_device
  end.

(** ** Running a routine against a kernel

    A kernel is any function that answers each call from its state [W] and
    moves to a next state.  The adapter's records live in a heap of their
    own, which a call into the kernel does not write: [mem] is the memory as
    the routine's own assignments leave it.  The core driver is handed a
    descriptor with a callback (lines 110 and 122) and may run that callback
    while its probe is still going on; such a call is a run of the callback
    of its own, on the memory of the moment of the hand-off
    ([mem_at_call]), and no statement about a record after the hand-off is
    made from a run of probe. *)

Definition handler (W : Type) : Type := forall X, kernelE X -> W -> X * W.

(** A call together with the answer it got. *)
Inductive event : Type :=
| Ev {X : Type} (e : kernelE X) (x : X).

Record outcome (W R : Type) : Type := Outcome {
  ret : R;
  mem : gmap ptr i2c_hid_acpi;
  env : W;
  trace : list event
}.

Arguments Outcome {W R} ret mem env trace.
Arguments ret {W R} o.
Arguments mem {W R} o.
Arguments env {W R} o.
Arguments trace {W R} o.

(** [o] preceded by the calls [evs]. *)
Definition after {W R : Type} (evs : list event) (o : outcome W R)
  : outcome W R :=
  Outcome (ret o) (mem o) (env o) (evs ++ trace o).

Fixpoint run {W R : Type} (kernel : handler W) (m : prog R)
    (h : gmap ptr i2c_hid_acpi) (w : W) : option (outcome W R) :=
  match m with
  | Ret r => Some (Outcome r h w [])
  | Call e k =>
      let (x, w') := kernel _ e w in
      option_map (after [Ev e x]) (run kernel (k x) h w')
  | Get p k =>
      match h !! p with
      | Some v => run kernel (k v) h w
      | None => None
      end
  | Put p v k => run kernel k (<[p := v]> h) w
  end.

(** ** Reading a trace

    The projection of a trace on one entry point of the kernel: the answers
    it gave, or the calls with their arguments, in order. *)

Definition dsm_answer (ev : event) : option (option acpi_object) :=
  match ev with
  | Ev e x =>
      match e in kernelE X return X -> option (option acpi_object) with
      | acpi_evaluate_dsm_typed _ _ _ _ _ _ => fun x => Some x
      | _ => fun _ => None
      end x
  end.

Definition kzalloc_answer (ev : event) : option (option ptr) :=
  match ev with
  | Ev e x =>
      match e in kernelE X return X -> option (option ptr) with
      | devm_kzalloc _ => fun x => Some x
      | _ => fun _ => None
      end x
  end.

Definition handle_answer (ev : event) : option (option acpi_handle) :=
  match ev with
  | Ev e x =>
      match e in kernelE X return X -> option (option acpi_handle) with
      | ACPI_HANDLE _ => fun x => Some x
      | _ => fun _ => None
      end x
  end.

Definition get_device_answer (ev : event) : option (option acpi_device) :=
  match ev with
  | Ev e x =>
      match e in kernelE X return X -> option (option acpi_device) with
      | acpi_bus_get_device _ => fun x => Some x
      | _ => fun _ => None
      end x
  end.

Definition companion_answer (ev : event) : option (option acpi_device) :=
  match ev with
  | Ev e x =>
      match e in kernelE X return X -> option (option acpi_device) with
      | ACPI_COMPANION _ => fun x => Some x
      | _ => fun _ => None
      end x
  end.

(** A match of a device against a table: the device, the table and the
    status returned. *)
Definition match_answer (ev : event)
  : option (acpi_device * list acpi_device_id * Z) :=
  match ev with
  | Ev e x =>
      match e in kernelE X
            return X -> option (acpi_device * list acpi_device_id * Z) with
      | acpi_match_device_ids adev ids => fun x => Some (adev, ids, x)
      | _ => fun _ => None
      end x
  end.

(** A call of the core driver's probe: its three arguments and its status. *)
Definition core_probe_call (ev : event)
  : option (i2c_client * subclass_ref * Z * Z) :=
  match ev with
  | Ev e x =>
      match e in kernelE X
            return X -> option (i2c_client * subclass_ref * Z * Z) with
      | i2c_hid_core_probe c s a => fun x => Some (c, s, a, x)
      | _ => fun _ => None
      end x
  end.

Definition fix_up_call (ev : event) : option acpi_device :=
  match ev with
  | Ev e _ =>
      match e with
      | acpi_device_fix_up_power adev => Some adev
      | _ => None
      end
  end.

Definition wakeup_call (ev : event) : option (device * bool + device * bool) :=
  match ev with
  | Ev e _ =>
      match e with
      | device_set_wakeup_capable dev b => Some (inl (dev, b))
      | device_set_wakeup_enable dev b => Some (inr (dev, b))
      | _ => None
      end
  end.

(** The projection itself. *)
Definition project {A : Type} (f : event -> option A) (tr : list event)
  : list A :=
  omap f tr.

(** ** A kernel to run the routines on

    One device, described by what its firmware and the core driver answer;
    the state records what the adapter's calls did to it. *)

Record firmware : Type := {
  fw_kzalloc : option ptr;
  fw_handle : option acpi_handle;
  fw_adev : option acpi_device;
  fw_ids : list string;
  fw_dsm : option Z;
  fw_core_probe : Z
}.

Record machine : Type := {
  can_wakeup : bool;
  should_wakeup : bool;
  fix_ups : nat;
  power_state : option acpi_power_state;
  core_shut_down : bool
}.

Definition machine0 : machine :=
  {| can_wakeup := false; should_wakeup := true; fix_ups := 0;
     power_state := None; core_shut_down := false |}.

(** Whether one of the device's identifiers is in a table; the table ends at
    its first empty identifier. *)
Fixpoint ids_match (ids : list string) (table : list acpi_device_id) : bool :=
  match table with
  | [] => false
  | entry :: rest =>
      if String.eqb (id entry) "" then false
      else existsb (String.eqb (id entry)) ids || ids_match ids rest
  end.

Definition sim (fw : firmware) : handler machine :=
  fun X e =>
    match e in kernelE X return machine -> X * machine with
    | devm_kzalloc _ => fun w => (fw_kzalloc fw, w)
    | dev_err _ _ => fun w => (tt, w)
    | ACPI_HANDLE _ => fun w => (fw_handle fw, w)
    | ACPI_COMPANION _ => fun w => (fw_adev fw, w)
    | acpi_bus_get_device _ => fun w => (fw_adev fw, w)
    | acpi_match_device_ids _ table =>
        fun w => (if ids_match (fw_ids fw) table then 0 else -2, w)
    | acpi_evaluate_dsm_typed _ _ _ _ _ _ =>
        fun w => (option_map Build_acpi_object (fw_dsm fw), w)
    | ACPI_FREE _ => fun w => (tt, w)
    | acpi_device_fix_up_power _ =>
        fun w => (0, {| can_wakeup := can_wakeup w;
                        should_wakeup := should_wakeup w;
                        fix_ups := S (fix_ups w);
                        power_state := power_state w;
                        core_shut_down := core_shut_down w |})
    | acpi_device_set_power _ s =>
        fun w => (0, {| can_wakeup := can_wakeup w;
                        should_wakeup := should_wakeup w;
                        fix_ups := fix_ups w;
                        power_state := Some s;
                        core_shut_down := core_shut_down w |})
    | device_set_wakeup_capable _ b =>
        fun w => (tt, {| can_wakeup := b;
                         should_wakeup := should_wakeup w;
                         fix_ups := fix_ups w;
                         power_state := power_state w;
                         core_shut_down := core_shut_down w |})
    | device_set_wakeup_enable _ b =>
        fun w => (0, {| can_wakeup := can_wakeup w;
                        should_wakeup := b;
                        fix_ups := fix_ups w;
                        power_state := power_state w;
                        core_shut_down := core_shut_down w |})
    | i2c_hid_core_probe _ _ _ => fun w => (fw_core_probe fw, w)
    | i2c_hid_core_shutdown _ =>
        fun w => (tt, {| can_wakeup := can_wakeup w;
                         should_wakeup := should_wakeup w;
                         fix_ups := fix_ups w;
                         power_state := power_state w;
                         core_shut_down := true |})
    end.

(** A touchpad that binds: its _DSM answers 0x10020, one bit above 16. *)
Definition touchpad : firmware :=
  {| fw_kzalloc := Some 64%N; fw_handle := Some 7%N; fw_adev := Some 9%N;
     fw_ids := ["ELAN0001"; "PNP0C50"]%string; fw_dsm := Some 0x10020;
     fw_core_probe := 0 |}.

(** The Chipone controller of the blacklist. *)
Definition chipone : firmware :=
  {| fw_kzalloc := Some 64%N; fw_handle := Some 7%N; fw_adev := Some 9%N;
     fw_ids := ["CHPN0001"; "PNP0C50"]%string; fw_dsm := Some 1;
     fw_core_probe := 0 |}.

(** The same touchpad behind a core driver whose probe fails with -EIO. *)
Definition touchpad_core_fails : firmware :=
  {| fw_kzalloc := Some 64%N; fw_handle := Some 7%N; fw_adev := Some 9%N;
     fw_ids := ["ELAN0001"; "PNP0C50"]%string; fw_dsm := Some 0x10020;
     fw_core_probe := -5 |}.

(** The touchpad when no memory is left, and when its _DSM fails. *)
Definition touchpad_no_memory : firmware :=
  {| fw_kzalloc := None; fw_handle := Some 7%N; fw_adev := Some 9%N;
     fw_ids := ["ELAN0001"; "PNP0C50"]%string; fw_dsm := Some 0x10020;
     fw_core_probe := 0 |}.

Definition touchpad_no_dsm : firmware :=
  {| fw_kzalloc := Some 64%N; fw_handle := Some 7%N; fw_adev := Some 9%N;
     fw_ids := ["ELAN0001"; "PNP0C50"]%string; fw_dsm := None;
     fw_core_probe := 0 |}.

(** A device without ACPI companion. *)
Definition orphan : firmware :=
  {| fw_kzalloc := Some 64%N; fw_handle := None; fw_adev := None;
     fw_ids := []; fw_dsm := None; fw_core_probe := 0 |}.

(** The adapter's memory once the touchpad is bound to client 1. *)
Definition touchpad_heap : gmap ptr i2c_hid_acpi :=
  {[ 64%N := {| subclass :=
                  {| power_up_device :=
                       Some fn_i2c_hid_acpi_power_up_device |};
                client := 1%N;
                power_fixed := false |} ]}.

(** The adapter's memory with two touchpads bound, clients 1 and 2. *)
Definition two_touchpads_heap : gmap ptr i2c_hid_acpi :=
  {[ 64%N := {| subclass :=
                  {| power_up_device :=
                       Some fn_i2c_hid_acpi_power_up_device |};
                client := 1%N;
                power_fixed := false |};
     128%N := {| subclass :=
                   {| power_up_device :=
                        Some fn_i2c_hid_acpi_power_up_device |};
                 client := 2%N;
                 power_fixed := false |} ]}.

(** Linux's values of the constants, over a given FADT flags word. *)
Definition linux (fadt_flags : Z) : Platform :=
  {| ENODEV := 19; ENOMEM := 12;
     ACPI_FADT_LOW_POWER_S0 := Z.shiftl 1 21;
     acpi_gbl_FADT_flags := fadt_flags |}.

(** ** The paths through the routines

    Each routine returns along one of a few paths; a path fixes the calls
    made, in order, and the value returned.  The answers of the kernel that
    select the path are the constructor's arguments. *)

Section Paths.
Context {P : Platform}.

(** Whether the FADT advertises low-power S0 idle (line 117). *)
Definition low_power_s0 : bool :=
  negb (Z.land acpi_gbl_FADT_flags ACPI_FADT_LOW_POWER_S0 =? 0).

Inductive descriptor_path (client : i2c_client) : list event -> Z -> Prop :=
| path_no_handle :
    descriptor_path client
      [ Ev (ACPI_HANDLE (dev_of client)) None;
        Ev (dev_err (dev_of client) no_acpi_device_msg) tt ]
      (- ENODEV)
| path_no_device handle :
    descriptor_path client
      [ Ev (ACPI_HANDLE (dev_of client)) (Some handle);
        Ev (acpi_bus_get_device handle) None;
        Ev (dev_err (dev_of client) no_acpi_device_msg) tt ]
      (- ENODEV)
| path_blacklisted handle adev :
    descriptor_path client
      [ Ev (ACPI_HANDLE (dev_of client)) (Some handle);
        Ev (acpi_bus_get_device handle) (Some adev);
        Ev (acpi_match_device_ids adev i2c_hid_acpi_blacklist) 0 ]
      (- ENODEV)
| path_dsm_failed handle adev m :
    m <> 0 ->
    descriptor_path client
      [ Ev (ACPI_HANDLE (dev_of client)) (Some handle);
        Ev (acpi_bus_get_device handle) (Some adev);
        Ev (acpi_match_device_ids adev i2c_hid_acpi_blacklist) m;
        Ev (acpi_evaluate_dsm_typed handle i2c_hid_guid 1 1 None
              ACPI_TYPE_INTEGER) None;
        Ev (dev_err (dev_of client) dsm_failed_msg) tt ]
      (- ENODEV)
| path_found handle adev m obj :
    m <> 0 ->
    descriptor_path client
      [ Ev (ACPI_HANDLE (dev_of client)) (Some handle);
        Ev (acpi_bus_get_device handle) (Some adev);
        Ev (acpi_match_device_ids adev i2c_hid_acpi_blacklist) m;
        Ev (acpi_evaluate_dsm_typed handle i2c_hid_guid 1 1 None
              ACPI_TYPE_INTEGER) (Some obj);
        Ev (ACPI_FREE obj) tt ]
      (to_u16 (integer_value obj)).

(** The record lines 105-110 leave at the allocated address. *)
Definition fresh_record (client : i2c_client) : i2c_hid_acpi :=
  {| subclass :=
       {| power_up_device := Some fn_i2c_hid_acpi_power_up_device |};
     client := client;
     power_fixed := false |}.

(** The calls of lines 117-120; [e] is the ignored status of
    [device_set_wakeup_enable]. *)
Definition wakeup_calls (client : i2c_client) (e : Z) : list event :=
  if low_power_s0
  then [ Ev (device_set_wakeup_capable (dev_of client) true) tt;
         Ev (device_set_wakeup_enable (dev_of client) false) e ]
  else [].

Inductive probe_path (client : i2c_client) (h : gmap ptr i2c_hid_acpi)
  : list event -> gmap ptr i2c_hid_acpi -> Z -> Prop :=
| probe_no_memory :
    probe_path client h
      [ Ev (devm_kzalloc (dev_of client)) None ] h (- ENOMEM)
| probe_no_descriptor p tr r :
    descriptor_path client tr r ->
    r < 0 ->
    probe_path client h
      (Ev (devm_kzalloc (dev_of client)) (Some p) :: tr)
      (<[p := fresh_record client]> h) r
| probe_hand_off p tr r e s :
    descriptor_path client tr r ->
    0 <= r ->
    probe_path client h
      (Ev (devm_kzalloc (dev_of client)) (Some p) :: tr
         ++ wakeup_calls client e
         ++ [ Ev (i2c_hid_core_probe client (subclass_of p) (to_u16 r)) s ])
      (<[p := fresh_record client]> h) s.

End Paths.

(** The kernel state a sequence of calls leads to. *)
Definition replay {W : Type} (kernel : handler W) (tr : list event) (w : W)
  : W :=
  fold_left (fun w ev => match ev with Ev e _ => snd (kernel _ e w) end) tr w.

(** Every answer in the trace is the one the kernel gives at that point. *)
Fixpoint answered {W : Type} (kernel : handler W) (tr : list event) (w : W)
  : Prop :=
  match tr with
  | [] => True
  | Ev e x :: tr' =>
      x = fst (kernel _ e w) /\ answered kernel tr' (snd (kernel _ e w))
  end.

(** ** What a trace says about a run *)

(** [devm_kzalloc] returned NULL. *)
Definition allocation_failed (tr : list event) : Prop :=
  In None (project kzalloc_answer tr).

(** The device has no ACPI handle, or no ACPI device goes with it. *)
Definition no_acpi_device (tr : list event) : Prop :=
  In None (project handle_answer tr) \/ In None (project get_device_answer tr).

(** The device matched an entry of the blacklist. *)
Definition blacklisted (tr : list event) : Prop :=
  exists adev, In (adev, i2c_hid_acpi_blacklist, 0) (project match_answer tr).

(** The _DSM evaluation returned no integer object. *)
Definition dsm_failed (tr : list event) : Prop :=
  In None (project dsm_answer tr).

(** The _DSM evaluation returned the integer object [obj]: descriptor
    discovery succeeded. *)
Definition descriptor_found (obj : acpi_object) (tr : list event) : Prop :=
  In (Some obj) (project dsm_answer tr).

(** The two wakeup calls stand right before the hand-off to the core
    driver's probe, which ends the trace. *)
Definition applies_wakeup_flags (client : i2c_client) (tr : list event)
  : Prop :=
  exists pre e s a r,
    tr = pre ++ [ Ev (device_set_wakeup_capable (dev_of client) true) tt;
                  Ev (device_set_wakeup_enable (dev_of client) false) e;
                  Ev (i2c_hid_core_probe client s a) r ].

(** The core driver calling the power-up callback [S n] times in a row. *)
Fixpoint power_up_again (n : nat) (sub : subclass_ref) : prog Z :=
  match n with
  | O => i2c_hid_acpi_power_up_device sub
  | S n' => i2c_hid_acpi_power_up_device sub ;; power_up_again n' sub
  end.

(** ** Further readings of a trace *)

(** An object handed to [ACPI_FREE]. *)
Definition free_call (ev : event) : option acpi_object :=
  match ev with
  | Ev e _ => match e with ACPI_FREE obj => Some obj | _ => None end
  end.

(** A message given to [dev_err], with the device it is about. *)
Definition err_msg (ev : event) : option (device * string) :=
  match ev with
  | Ev e _ => match e with dev_err dev msg => Some (dev, msg) | _ => None end
  end.

(** An evaluation of _DSM: its six arguments. *)
Definition dsm_call (ev : event)
  : option (acpi_handle * guid_t * Z * Z * option acpi_object
            * acpi_object_type) :=
  match ev with
  | Ev e _ =>
      match e with
      | acpi_evaluate_dsm_typed handle guid rev func argv4 type =>
          Some (handle, guid, rev, func, argv4, type)
      | _ => None
      end
  end.

(** The handle given to [acpi_bus_get_device]. *)
Definition get_device_call (ev : event) : option acpi_handle :=
  match ev with
  | Ev e _ =>
      match e with acpi_bus_get_device handle => Some handle | _ => None end
  end.

(** A call of [acpi_device_set_power]: the device and the state asked for. *)
Definition set_power_call (ev : event)
  : option (option acpi_device * acpi_power_state) :=
  match ev with
  | Ev e _ =>
      match e with
      | acpi_device_set_power adev state => Some (adev, state)
      | _ => None
      end
  end.

(** The objects the _DSM evaluations of a trace returned, in order. *)
Definition returned_objects (tr : list event) : list acpi_object :=
  omap (fun answer : option acpi_object => answer) (project dsm_answer tr).

(** The calls descriptor discovery is made of: lookups in the ACPI
    namespace, the _DSM evaluation, the release of its result and error
    messages. *)
Definition discovery_call (ev : event) : bool :=
  match ev with
  | Ev e _ =>
      match e with
      | ACPI_HANDLE _ | acpi_bus_get_device _ | acpi_match_device_ids _ _
      | acpi_evaluate_dsm_typed _ _ _ _ _ _ | ACPI_FREE _ | dev_err _ _ =>
          true
      | _ => false
      end
  end.

(** The core driver calling the power-up callback on one subclass
    descriptor after the other, those of several devices as they come. *)
Fixpoint power_up_each (subs : list subclass_ref) : prog Z :=
  match subs with
  | [] => Ret 0
  | sub :: rest => i2c_hid_acpi_power_up_device sub ;; power_up_each rest
  end.

(** The addresses of the records a list of descriptors belongs to. *)
Definition records (subs : list subclass_ref) : gset ptr :=
  list_to_set (container_of <$> subs).

(** ** The hand-off to the core driver *)

(** The call of the core driver's probe. *)
Definition is_core_probe (X : Type) (e : kernelE X) : bool :=
  match e with
  | i2c_hid_core_probe _ _ _ => true
  | _ => false
  end.

(** The adapter's memory at the moment a routine makes its first call that
    [stop] selects, before the kernel answers it; [None] when the routine
    makes no such call. *)
Fixpoint mem_at_call {W R : Type} (kernel : handler W)
    (stop : forall X, kernelE X -> bool) (m : prog R)
    (h : gmap ptr i2c_hid_acpi) (w : W) : option (gmap ptr i2c_hid_acpi) :=
  match m with
  | Ret _ => None
  | Call e k =>
      if stop _ e then Some h
      else let (x, w') := kernel _ e w in mem_at_call kernel stop (k x) h w'
  | Get p k =>
      match h !! p with
      | Some v => mem_at_call kernel stop (k v) h w
      | None => None
      end
  | Put p v k => mem_at_call kernel stop k (<[p := v]> h) w
  end.

(** The calls of a run of probe up to a successful _DSM evaluation, with
    the answers that make discovery succeed: memory for the record at [p],
    an ACPI handle, its ACPI device, a status [m] from the match against the
    blacklist, and the integer object [obj]. *)
Definition discovery_answers (client : i2c_client) (p : ptr)
    (handle : acpi_handle) (adev : acpi_device) (m : Z) (obj : acpi_object)
  : list event :=
  [ Ev (devm_kzalloc (dev_of client)) (Some p);
    Ev (ACPI_HANDLE (dev_of client)) (Some handle);
    Ev (acpi_bus_get_device handle) (Some adev);
    Ev (acpi_match_device_ids adev i2c_hid_acpi_blacklist) m;
    Ev (acpi_evaluate_dsm_typed handle i2c_hid_guid 1 1 None
          ACPI_TYPE_INTEGER) (Some obj) ].

(** * Properties *)

(** ** Arithmetic of [u16] *)

Lemma to_u16_range v : 0 <= to_u16 v < 65536.
Proof. unfold to_u16. apply Z.mod_pos_bound. lia. Qed.

Lemma to_u16_small v : 0 <= v < 65536 -> to_u16 v = v.
Proof. intros Hv. unfold to_u16. apply Z.mod_small. lia. Qed.

Lemma to_u16_idem v : to_u16 (to_u16 v) = to_u16 v.
Proof. apply to_u16_small, to_u16_range. Qed.


(** ** The run of a sequence *)

Section Run.
Context {W : Type} (kernel : handler W).

Lemma after_after {R} (a b : list event) (o : outcome W R) :
  after a (after b o) = after (a ++ b) o.
Proof. unfold after. cbn. rewrite app_assoc. reflexivity. Qed.

Lemma after_nil {R} (o : outcome W R) : after [] o = o.
Proof. destruct o. reflexivity. Qed.

(** Running [m] and then [f] is running [m], then [f] on its result from
    the state it left; the traces follow each other. *)
Lemma run_bind {A B} (m : prog A) (f : A -> prog B) h w :
  run kernel (bind m f) h w =
  match run kernel m h w with
  | Some o => option_map (after (trace o))
                (run kernel (f (ret o)) (mem o) (env o))
  | None => None
  end.
Proof.
  revert h w. induction m as [r | X e k IH | p k IH | p v k IH]; intros h w.
  - cbn. destruct (run kernel (f r) h w) as [o|]; cbn; [|reflexivity].
    rewrite after_nil. reflexivity.
  - cbn. destruct (kernel X e w) as [x w']. rewrite IH.
    destruct (run kernel (k x) h w') as [o|]; cbn; [|reflexivity].
    destruct (run kernel (f (ret o)) (mem o) (env o)) as [o'|]; cbn;
      [|reflexivity].
    rewrite after_after. reflexivity.
  - cbn. destruct (h !! p) as [v|]; [apply IH | reflexivity].
  - cbn. apply IH.
Qed.

(** The kernel state after a run is the one its calls lead to, and the
    answers in its trace are the kernel's. *)
Lemma run_replay {R} (m : prog R) h w o :
  run kernel m h w = Some o ->
  env o = replay kernel (trace o) w /\ answered kernel (trace o) w.
Proof.
  revert h w o. induction m as [r | X e k IH | p k IH | p v k IH];
    intros h w o; cbn.
  - intros [= <-]. cbn. auto.
  - destruct (kernel X e w) as [x w'] eqn:E.
    destruct (run kernel (k x) h w') as [o'|] eqn:E'; cbn; [|discriminate].
    intros [= <-]. apply IH in E' as [He Ha]. cbn. rewrite E. cbn. auto.
  - destruct (h !! p) as [v|]; [apply IH | discriminate].
  - apply IH.
Qed.


End Run.

(** ** Every run follows a path *)

(** Runs of [i2c_hid_acpi_get_descriptor] inside another routine are taken
    from the lemma about it, not unfolded. *)
Arguments i2c_hid_acpi_get_descriptor : simpl never.

(** One step of a run: split on the kernel's answer to the next call. *)
Tactic Notation "kernel_step" "as" simple_intropattern(pat) :=
  lazymatch goal with
  | |- context [let (_, _) := ?k ?X ?e ?w in _] =>
      destruct (k X e w) as pat; cbn
  end.

(** Close a leaf: the run is done and its outcome is explicit. *)
Ltac run_done := eexists; split; [reflexivity | cbn].

Section Outcomes.
Context {P : Platform} {W : Type} (kernel : handler W).

Lemma get_descriptor_run client h w :
  exists o,
    run kernel (i2c_hid_acpi_get_descriptor client) h w = Some o
    /\ mem o = h
    /\ descriptor_path client (trace o) (ret o).
Proof.
  unfold i2c_hid_acpi_get_descriptor. cbn.
  kernel_step as [[handle|] w1].
  - kernel_step as [[adev|] w2].
    + kernel_step as [m w3]. destruct (m =? 0) eqn:Hm; cbn.
      * apply Z.eqb_eq in Hm as ->. run_done. split; [reflexivity|].
        constructor.
      * apply Z.eqb_neq in Hm. kernel_step as [[obj|] w4].
        -- kernel_step as [[] w5]. run_done. split; [reflexivity|].
           now constructor.
        -- kernel_step as [[] w5]. run_done. split; [reflexivity|].
           now constructor.
    + kernel_step as [[] w3]. run_done. split; [reflexivity|]. constructor.
  - kernel_step as [[] w2]. run_done. split; [reflexivity|]. constructor.
Qed.

Lemma probe_run client h w :
  exists o,
    run kernel (i2c_hid_acpi_probe client) h w = Some o
    /\ probe_path client h (trace o) (mem o) (ret o).
Proof.
  unfold i2c_hid_acpi_probe. cbn.
  kernel_step as [[p|] w1].
  2:{ run_done. constructor. }
  rewrite lookup_insert_eq. cbn. rewrite lookup_insert_eq. cbn.
  rewrite !insert_insert_eq. change (set_power_up_device _ _)
    with (fresh_record client).
  rewrite run_bind.
  destruct (get_descriptor_run client (<[p := fresh_record client]> h) w1)
    as (o & Hrun & Hmem & Hpath).
  rewrite Hrun, Hmem. cbn.
  destruct (ret o <? 0) eqn:Hneg; cbn.
  - apply Z.ltb_lt in Hneg. run_done. rewrite app_nil_r.
    now apply probe_no_descriptor.
  - apply Z.ltb_ge in Hneg.
    pose proof (probe_hand_off client h p (trace o) (ret o)) as Hoff.
    unfold wakeup_calls, low_power_s0 in Hoff.
    destruct (Z.land acpi_gbl_FADT_flags ACPI_FADT_LOW_POWER_S0 =? 0);
      cbn in *.
    + kernel_step as [s w2]. run_done. now apply (Hoff 0).
    + kernel_step as [[] w2]. kernel_step as [e w3].
      kernel_step as [s w4]. run_done. now apply Hoff.
Qed.


(** The run of probe against a kernel whose answers make discovery
    succeed: the calls made, the status returned and the memory at the
    hand-off. *)
Lemma probe_found_run client h w p handle adev m obj :
  m <> 0 ->
  answered kernel (discovery_answers client p handle adev m obj) w ->
  exists o e s,
    run kernel (i2c_hid_acpi_probe client) h w = Some o
    /\ trace o =
       (discovery_answers client p handle adev m obj
        ++ [ Ev (ACPI_FREE obj) tt ]
        ++ wakeup_calls client e
        ++ [ Ev (i2c_hid_core_probe client (subclass_of p)
                   (to_u16 (integer_value obj))) s ])
    /\ ret o = s
    /\ mem_at_call kernel is_core_probe (i2c_hid_acpi_probe client) h w
       = Some (<[p := fresh_record client]> h).
Proof.
  intros Hm Hans. unfold discovery_answers in *. cbn [answered] in Hans.
  apply Z.eqb_neq in Hm.
  pose proof (to_u16_range (integer_value obj)) as Hrange.
  assert (Hpos : (to_u16 (integer_value obj) <? 0) = false)
    by (apply Z.ltb_ge; lia).
  unfold i2c_hid_acpi_probe, i2c_hid_acpi_get_descriptor.
  unfold wakeup_calls, low_power_s0. cbn.
  destruct (kernel _ (devm_kzalloc (dev_of client)) w) as [? w1];
    cbn in Hans; destruct Hans as [<- Hans]; cbn.
  repeat (rewrite lookup_insert_eq; cbn). rewrite !insert_insert_eq.
  change (set_power_up_device _ _) with (fresh_record client).
  destruct (kernel _ (ACPI_HANDLE (dev_of client)) w1) as [? w2];
    cbn in Hans; destruct Hans as [<- Hans]; cbn.
  destruct (kernel _ (acpi_bus_get_device handle) w2) as [? w3];
    cbn in Hans; destruct Hans as [<- Hans]; cbn.
  destruct (kernel _ (acpi_match_device_ids adev i2c_hid_acpi_blacklist) w3)
    as [? w4]; cbn in Hans; destruct Hans as [<- Hans]; cbn.
  rewrite Hm. cbn.
  destruct (kernel _ (acpi_evaluate_dsm_typed handle i2c_hid_guid 1 1 None
                        ACPI_TYPE_INTEGER) w4) as [? w5];
    cbn in Hans; destruct Hans as [<- _]; cbn.
  kernel_step as [[] w6]. rewrite Hpos, to_u16_idem. cbn.
  destruct (Z.land acpi_gbl_FADT_flags ACPI_FADT_LOW_POWER_S0 =? 0); cbn.
  - kernel_step as [s w7]. exists (Outcome s (<[p := fresh_record client]> h) w7
      (discovery_answers client p handle adev m obj
       ++ [ Ev (ACPI_FREE obj) tt;
            Ev (i2c_hid_core_probe client (subclass_of p)
                  (to_u16 (integer_value obj))) s ])), 0, s.
    repeat split.
  - kernel_step as [[] w7]. kernel_step as [e w8]. kernel_step as [s w9].
    eexists _, e, s. repeat split.
Qed.

(** The run of the power-up callback on a record [r] at the address the
    subclass descriptor belongs to. *)
Lemma power_up_run sub h w r :
  h !! container_of sub = Some r ->
  exists o,
    run kernel (i2c_hid_acpi_power_up_device sub) h w = Some o
    /\ ret o = 0
    /\ mem o = <[container_of sub := set_power_fixed true r]> h
    /\ if power_fixed r then trace o = [] /\ env o = w
       else exists adev s,
           trace o = Ev (ACPI_COMPANION (dev_of (client r))) adev
                     :: match adev with
                        | Some a => [Ev (acpi_device_fix_up_power a) s]
                        | None => []
                        end.
Proof.
  intros Hr. unfold i2c_hid_acpi_power_up_device. cbn. rewrite Hr.
  destruct r as [s c [|]]; cbn.
  - run_done. split; [reflexivity|]. split; [|split; reflexivity].
    symmetry. apply insert_id. exact Hr.
  - rewrite Hr. cbn. kernel_step as [[a|] w1].
    + kernel_step as [x w2]. run_done. do 2 (split; [reflexivity|]).
      now exists (Some a), x.
    + run_done. do 2 (split; [reflexivity|]). now exists None, 0.
Qed.

Lemma shutdown_run client h w :
  exists o adev s,
    run kernel (i2c_hid_acpi_shutdown client) h w = Some o
    /\ mem o = h
    /\ trace o = [ Ev (i2c_hid_core_shutdown client) tt;
                   Ev (ACPI_COMPANION (dev_of client)) adev;
                   Ev (acpi_device_set_power adev ACPI_STATE_D3_COLD) s ].
Proof.
  unfold i2c_hid_acpi_shutdown. cbn.
  kernel_step as [[] w1]. kernel_step as [adev w2]. kernel_step as [s w3].
  eexists _, _, _. split; [reflexivity|]. cbn. auto.
Qed.

End Outcomes.

(** ** The claims about probe *)

(** Split a run of probe into its paths, with the traces written out. *)
Arguments low_power_s0 : simpl never.

Ltac probe_paths H :=
  inversion H as [ | ?p ?tr ?r Hd Hr | ?p ?tr ?r ?e ?s Hd Hr ]; subst;
  [ | inversion Hd; subst; clear Hd .. ]; clear H;
  unfold wakeup_calls in *;
  repeat match goal with
    | |- context [if low_power_s0 then _ else _] =>
        destruct low_power_s0 eqn:?
    | H' : context [if low_power_s0 then _ else _] |- _ =>
        destruct low_power_s0 eqn:?
    end;
  cbn in *.

(** A path on which a [u16] would be negative does not exist. *)
Ltac u16_absurd :=
  match goal with
  | H : to_u16 ?v < 0 |- _ => pose proof (to_u16_range v); lia
  end.

(** Split a trace that is written out before a given list of last calls. *)
Lemma cons_app {A} (a : A) (l pre suf : list A) :
  l = pre ++ suf -> a :: l = (a :: pre) ++ suf.
Proof. intros ->. reflexivity. Qed.

Ltac trace_split :=
  first [ exact (eq_refl ([] ++ _)) | apply cons_app; trace_split ].

Section Probe.
Context {P : Platform} {W : Type} (kernel : handler W).

(** C1.  Take any run of probe in which descriptor discovery succeeds:
    the kernel gives memory for the record, at [p], an ACPI handle for the
    client's device, the ACPI device of that handle, a status other than 0
    for the match against the blacklist, and an integer object [obj] for the
    _DSM evaluation.  Then probe releases the object, makes the wakeup calls
    of the platform, and as its last call hands over to the core driver's
    probe with the client, the subclass descriptor of the record at [p] and
    the descriptor address read from [obj]; it makes no other call of the
    core's probe, the status [s] in the trace is the one the kernel gave,
    and probe returns it. *)
Theorem probe_forwards_to_core client h w p handle adev m obj :
  m <> 0 ->
  answered kernel (discovery_answers client p handle adev m obj) w ->
  exists o e s,
    run kernel (i2c_hid_acpi_probe client) h w = Some o
    /\ trace o =
       (discovery_answers client p handle adev m obj
        ++ [ Ev (ACPI_FREE obj) tt ]
        ++ wakeup_calls client e
        ++ [ Ev (i2c_hid_core_probe client (subclass_of p)
                   (to_u16 (integer_value obj))) s ])
    /\ project core_probe_call (trace o)
       = [ (client, subclass_of p, to_u16 (integer_value obj), s) ]
    /\ answered kernel (trace o) w
    /\ ret o = s.
Proof.
  intros Hm Hans.
  destruct (probe_found_run kernel client h w p handle adev m obj Hm Hans)
    as (o & e & s & Hrun & Htrace & Hret & _).
  exists o, e, s. split; [exact Hrun|]. split; [exact Htrace|].
  split; [|split; [|exact Hret]].
  - rewrite Htrace. unfold wakeup_calls. destruct low_power_s0; reflexivity.
  - apply (run_replay kernel _ _ _ _ Hrun).
Qed.

(** C2.  Each of the four failure causes (no memory for the record, no ACPI
    device, a blacklisted device, a failed _DSM evaluation) makes probe
    return a negative status, [-ENOMEM] for the first and [-ENODEV] for the
    others, and the core driver's probe is not called. *)
Theorem probe_failures_negative client h w :
  0 < ENODEV -> 0 < ENOMEM ->
  exists o,
    run kernel (i2c_hid_acpi_probe client) h w = Some o
    /\ (allocation_failed (trace o) ->
        ret o = - ENOMEM /\ ret o < 0
        /\ project core_probe_call (trace o) = [])
    /\ (no_acpi_device (trace o) \/ blacklisted (trace o)
        \/ dsm_failed (trace o) ->
        ret o = - ENODEV /\ ret o < 0
        /\ project core_probe_call (trace o) = []).
Proof.
  intros Hnodev Hnomem.
  destruct (probe_run kernel client h w) as ([r m e t] & Hrun & Hpath).
  eexists; split; [exact Hrun|]. clear Hrun. cbn in *.
  unfold allocation_failed, no_acpi_device, blacklisted, dsm_failed.
  probe_paths Hpath; try lia; try u16_absurd.
  all: split; [intros Hc | intros [[Hc|Hc]|[[adev' Hc]|Hc]]].
  all: try (repeat split; (reflexivity || lia)).
  all: cbn in Hc; intuition (try discriminate; try congruence).
Qed.

(** C4.  When the device matches the blacklist, whose only identifier is
    CHPN0001, descriptor discovery returns [-ENODEV] without any _DSM
    evaluation, and probe returns that negative status without calling the
    core driver's probe. *)
Theorem blacklisted_device_not_probed client h w :
  0 < ENODEV ->
  map id i2c_hid_acpi_blacklist = ["CHPN0001"; ""]%string
  /\ (exists o,
        run kernel (i2c_hid_acpi_get_descriptor client) h w = Some o
        /\ (blacklisted (trace o) ->
            ret o = - ENODEV /\ project dsm_answer (trace o) = []))
  /\ (exists o,
        run kernel (i2c_hid_acpi_probe client) h w = Some o
        /\ (blacklisted (trace o) ->
            ret o = - ENODEV /\ ret o < 0
            /\ project dsm_answer (trace o) = []
            /\ project core_probe_call (trace o) = [])).
Proof.
  intros Hnodev. split; [reflexivity|]. split.
  - destruct (get_descriptor_run kernel client h w)
      as ([r m e t] & Hrun & _ & Hpath).
    eexists; split; [exact Hrun|]. clear Hrun. cbn in *.
    intros [adev' Hb]. inversion Hpath; subst; cbn in *;
      intuition (try discriminate; try congruence).
  - destruct (probe_run kernel client h w) as ([r m e t] & Hrun & Hpath).
    eexists; split; [exact Hrun|]. clear Hrun. cbn in *.
    intros [adev' Hb].
    probe_paths Hpath; try lia; try u16_absurd.
    all: try (repeat split; (reflexivity || lia)).
    all: intuition (try discriminate; try congruence).
Qed.

(** C5, as amended.  In a successful bind (probe returns 0) on a platform
    whose FADT advertises low-power S0 idle, probe marks the device
    wakeup-capable and then sets its wakeup-enable state to disabled right
    before it hands off to the core driver's probe; on a platform whose
    FADT does not, it makes neither call. *)
Theorem probe_wakeup_flags_by_fadt client h w :
  0 < ENODEV -> 0 < ENOMEM ->
  exists o,
    run kernel (i2c_hid_acpi_probe client) h w = Some o
    /\ (ret o = 0 ->
        if low_power_s0
        then applies_wakeup_flags client (trace o)
        else project wakeup_call (trace o) = []).
Proof.
  intros Hnodev Hnomem.
  destruct (probe_run kernel client h w) as ([r m e t] & Hrun & Hpath).
  eexists; split; [exact Hrun|]. clear Hrun. cbn in *. intros ->.
  unfold applies_wakeup_flags.
  inversion Hpath as [ | ?p ?tr ?r Hd Hr | ?p ?tr ?r ?e ?s Hd Hr ]; subst;
    try lia.
  inversion Hd; subst; try lia; clear Hd Hpath.
  unfold wakeup_calls. destruct low_power_s0; cbn.
  - eexists [_; _; _; _; _; _], _, _, _, _. reflexivity.
  - reflexivity.
Qed.

(** C7.  In a run of probe the _DSM method is evaluated at most once,
    whichever way the run ends, and so it is in a run of descriptor
    discovery alone. *)
Theorem probe_evaluates_dsm_at_most_once client h w :
  (exists o,
      run kernel (i2c_hid_acpi_probe client) h w = Some o
      /\ (length (project dsm_answer (trace o)) <= 1)%nat)
  /\ (exists o,
        run kernel (i2c_hid_acpi_get_descriptor client) h w = Some o
        /\ (length (project dsm_answer (trace o)) <= 1)%nat).
Proof.
  split.
  - destruct (probe_run kernel client h w) as ([r m e t] & Hrun & Hpath).
    eexists; split; [exact Hrun|]. clear Hrun. cbn in *.
    probe_paths Hpath; lia.
  - destruct (get_descriptor_run kernel client h w)
      as ([r m e t] & Hrun & _ & Hpath).
    eexists; split; [exact Hrun|]. clear Hrun. cbn in *.
    inversion Hpath; subst; cbn; lia.
Qed.


(** C10.  On a platform whose FADT advertises low-power S0 idle, whenever
    probe calls the core driver's probe, the two wakeup calls (capable: true,
    enable: false) stand right before that call and are the only wakeup calls
    of the run; the call of the core is the last thing probe does, so probe
    returns the core's status, an error included, and leaves the kernel in
    the state the core's probe left it in: nothing is undone. *)
Theorem probe_keeps_wakeup_settings client h w :
  low_power_s0 = true ->
  exists o,
    run kernel (i2c_hid_acpi_probe client) h w = Some o
    /\ forall c s a r,
        In (c, s, a, r) (project core_probe_call (trace o)) ->
        exists pre e,
          let wakeup :=
            [ Ev (device_set_wakeup_capable (dev_of client) true) tt;
              Ev (device_set_wakeup_enable (dev_of client) false) e ] in
          trace o = pre ++ wakeup ++ [ Ev (i2c_hid_core_probe c s a) r ]
          /\ project wakeup_call pre = []
          /\ project core_probe_call pre = []
          /\ ret o = r
          /\ env o = snd (kernel _ (i2c_hid_core_probe c s a)
                            (replay kernel (pre ++ wakeup) w)).
Proof.
  intros Hs0.
  destruct (probe_run kernel client h w) as (o & Hrun & Hpath).
  exists o; split; [exact Hrun|].
  apply run_replay in Hrun as [Henv _]. destruct o as [r m e t]. cbn in *.
  intros c s a r' Hcall. subst e.
  probe_paths Hpath; try tauto; try congruence.
  all: destruct Hcall as [[= <- <- <- <-]|[]].
  all: eexists _, _; cbn; split; [trace_split|].
  all: repeat split; reflexivity.
Qed.

End Probe.

(** ** The claims about power-up and shutdown *)

Section Callbacks.
Context {W : Type} (kernel : handler W).

(** Once the flag is set, the callback is a no-op that returns 0. *)
Lemma power_up_fixed sub h w r :
  h !! container_of sub = Some r ->
  power_fixed r = true ->
  run kernel (i2c_hid_acpi_power_up_device sub) h w = Some (Outcome 0 h w []).
Proof.
  intros Hr Hfixed. unfold i2c_hid_acpi_power_up_device. cbn.
  rewrite Hr, Hfixed. reflexivity.
Qed.

Lemma power_up_again_fixed n sub h w r :
  h !! container_of sub = Some r ->
  power_fixed r = true ->
  run kernel (power_up_again n sub) h w = Some (Outcome 0 h w []).
Proof.
  intros Hr Hfixed. induction n as [|n IH]; cbn [power_up_again].
  - now apply power_up_fixed with r.
  - rewrite run_bind, (power_up_fixed sub h w r Hr Hfixed). cbn.
    rewrite IH. reflexivity.
Qed.

(** C3.  On any adapter record the power-up callback returns 0 and leaves
    the flag set.  It asks for the fix-up at most once; on a record whose
    flag is not yet set it looks up the ACPI companion and asks for the
    fix-up exactly when there is one.  On a record whose flag is set it
    makes no call and changes nothing.  So any number of calls in a row
    ends exactly as the first call does: same result, same record, same
    kernel state, same calls. *)
Theorem power_up_fixes_once sub h w r :
  h !! container_of sub = Some r ->
  exists o,
    run kernel (i2c_hid_acpi_power_up_device sub) h w = Some o
    /\ ret o = 0
    /\ mem o !! container_of sub = Some (set_power_fixed true r)
    /\ (length (project fix_up_call (trace o)) <= 1)%nat
    /\ (power_fixed r = false ->
        exists adev,
          project companion_answer (trace o) = [adev]
          /\ project fix_up_call (trace o) =
             match adev with Some a => [a] | None => [] end)
    /\ (forall h' w' r',
          h' !! container_of sub = Some r' ->
          power_fixed r' = true ->
          run kernel (i2c_hid_acpi_power_up_device sub) h' w'
          = Some (Outcome 0 h' w' []))
    /\ (forall n, run kernel (power_up_again n sub) h w = Some o).
Proof.
  intros Hr.
  destruct (power_up_run kernel sub h w r Hr)
    as ([z m e t] & Hrun & Hret & Hmem & Htrace).
  cbn in Hret, Hmem, Htrace. subst z m.
  assert (Hlook : <[container_of sub := set_power_fixed true r]> h
                  !! container_of sub = Some (set_power_fixed true r))
    by apply lookup_insert_eq.
  eexists; split; [exact Hrun|]. cbn.
  split; [reflexivity|]. split; [exact Hlook|].
  split; [|split; [|split]].
  - destruct (power_fixed r).
    + destruct Htrace as [-> _]. cbn. lia.
    + destruct Htrace as ([a|] & s & ->); cbn; lia.
  - intros Hfresh. rewrite Hfresh in Htrace.
    destruct Htrace as ([a|] & s & ->); eexists; split; reflexivity.
  - intros h' w' r'. apply power_up_fixed.
  - intros [|n]; cbn [power_up_again]; [exact Hrun|].
    rewrite run_bind, Hrun. cbn.
    rewrite (power_up_again_fixed n sub _ e _ Hlook eq_refl). cbn.
    unfold after. cbn. rewrite app_nil_r. reflexivity.
Qed.

(** C8.  The power-up callback returns 0 on every adapter record, whatever
    its flag; when the device has no ACPI companion the lookup is the only
    call the callback makes: nothing is logged and nothing is reported. *)
Theorem power_up_returns_zero sub h w r :
  h !! container_of sub = Some r ->
  exists o,
    run kernel (i2c_hid_acpi_power_up_device sub) h w = Some o
    /\ ret o = 0
    /\ (In None (project companion_answer (trace o)) ->
        trace o = [ Ev (ACPI_COMPANION (dev_of (client r))) None ]).
Proof.
  intros Hr.
  destruct (power_up_run kernel sub h w r Hr)
    as ([z m e t] & Hrun & Hret & _ & Htrace).
  eexists; split; [exact Hrun|]. cbn in *. split; [exact Hret|].
  destruct (power_fixed r).
  - destruct Htrace as [-> _]. intros [].
  - destruct Htrace as ([a|] & s & ->); cbn; [|reflexivity].
    intros [[=]|[]].
Qed.

(** C6.  A run of shutdown makes exactly these calls, in this order: the
    core driver's shutdown, once, and then, with the device's ACPI companion,
    the transition of that companion to D3cold, once. *)
Theorem shutdown_core_then_d3cold client h w :
  exists o adev s,
    run kernel (i2c_hid_acpi_shutdown client) h w = Some o
    /\ trace o = [ Ev (i2c_hid_core_shutdown client) tt;
                   Ev (ACPI_COMPANION (dev_of client)) adev;
                   Ev (acpi_device_set_power adev ACPI_STATE_D3_COLD) s ].
Proof.
  destruct (shutdown_run kernel client h w) as (o & adev & s & Hrun & _ & Ht).
  now exists o, adev, s.
Qed.

End Callbacks.

(** * The claims on the simulated kernel *)

(** The touchpad binds on a platform with low-power S0 idle: the calls of
    the run, in order. *)
Example probe_touchpad :
  option_map (fun o => (ret o, trace o))
    (run (sim touchpad) (@i2c_hid_acpi_probe (linux (Z.shiftl 1 21)) 1%N)
       ∅ machine0)
  = Some (0,
          [ Ev (devm_kzalloc (dev_of 1%N)) (Some 64%N);
            Ev (ACPI_HANDLE (dev_of 1%N)) (Some 7%N);
            Ev (acpi_bus_get_device 7%N) (Some 9%N);
            Ev (acpi_match_device_ids 9%N i2c_hid_acpi_blacklist) (-2);
            Ev (acpi_evaluate_dsm_typed 7%N i2c_hid_guid 1 1 None
                  ACPI_TYPE_INTEGER) (Some {| integer_value := 0x10020 |});
            Ev (ACPI_FREE {| integer_value := 0x10020 |}) tt;
            Ev (device_set_wakeup_capable (dev_of 1%N) true) tt;
            Ev (device_set_wakeup_enable (dev_of 1%N) false) 0;
            Ev (i2c_hid_core_probe 1%N (subclass_of 64%N) 0x20) 0 ]).
Proof. reflexivity. Qed.

(** A device without ACPI handle: one message, -ENODEV. *)
Example probe_orphan :
  option_map (fun o => (ret o, trace o))
    (run (sim orphan) (@i2c_hid_acpi_probe (linux 0) 1%N) ∅ machine0)
  = Some (-19,
          [ Ev (devm_kzalloc (dev_of 1%N)) (Some 64%N);
            Ev (ACPI_HANDLE (dev_of 1%N)) None;
            Ev (dev_err (dev_of 1%N) no_acpi_device_msg) tt ]).
Proof. reflexivity. Qed.

(** No memory for the record: -ENOMEM after the one call. *)
Example probe_no_memory_run :
  option_map (fun o => (ret o, trace o))
    (run (sim touchpad_no_memory) (@i2c_hid_acpi_probe (linux 0) 1%N)
       ∅ machine0)
  = Some (-12, [ Ev (devm_kzalloc (dev_of 1%N)) None ]).
Proof. reflexivity. Qed.

(** A _DSM that fails: one evaluation, one message, -ENODEV. *)
Example probe_no_dsm_run :
  option_map (fun o => (ret o, trace o))
    (run (sim touchpad_no_dsm) (@i2c_hid_acpi_probe (linux 0) 1%N)
       ∅ machine0)
  = Some (-19,
          [ Ev (devm_kzalloc (dev_of 1%N)) (Some 64%N);
            Ev (ACPI_HANDLE (dev_of 1%N)) (Some 7%N);
            Ev (acpi_bus_get_device 7%N) (Some 9%N);
            Ev (acpi_match_device_ids 9%N i2c_hid_acpi_blacklist) (-2);
            Ev (acpi_evaluate_dsm_typed 7%N i2c_hid_guid 1 1 None
                  ACPI_TYPE_INTEGER) None;
            Ev (dev_err (dev_of 1%N) dsm_failed_msg) tt ]).
Proof. reflexivity. Qed.

(** Shutdown of the touchpad: the core is shut down and the companion is
    in D3cold. *)
Example shutdown_touchpad :
  option_map (fun o => (core_shut_down (env o), power_state (env o)))
    (run (sim touchpad) (i2c_hid_acpi_shutdown 1%N) ∅ machine0)
  = Some (true, Some ACPI_STATE_D3_COLD).
Proof. reflexivity. Qed.

(** C5 as stated fails: on a platform whose FADT does not advertise
    low-power S0 idle the touchpad binds (probe returns 0 after the core's
    probe was called) and no wakeup call is made; the device's wakeup
    settings are the ones it had. *)
Lemma probe_without_s0_applies_no_wakeup_flags :
  exists o,
    run (sim touchpad) (@i2c_hid_acpi_probe (linux 0) 1%N) ∅ machine0 = Some o
    /\ ret o = 0
    /\ project core_probe_call (trace o) = [ (1%N, subclass_of 64%N, 0x20, 0) ]
    /\ project wakeup_call (trace o) = []
    /\ ~ applies_wakeup_flags 1%N (trace o)
    /\ can_wakeup (env o) = can_wakeup machine0
    /\ should_wakeup (env o) = should_wakeup machine0.
Proof.
  eexists. split; [vm_compute; reflexivity|]. cbn.
  repeat split.
  intros (pre & e & s & a & r & H).
  apply (f_equal (project wakeup_call)) in H. unfold project in H.
  rewrite omap_app in H. cbn in H.
  destruct (omap wakeup_call pre); discriminate.
Qed.

(** The Chipone controller under Linux's errno values: the run is one of
    the failures of C2, it returns -19 and the core's probe is not called. *)
Lemma probe_failures_negative_witness :
  0 < @ENODEV (linux 0) /\ 0 < @ENOMEM (linux 0)
  /\ exists o,
      run (sim chipone) (@i2c_hid_acpi_probe (linux 0) 1%N) ∅ machine0 = Some o
      /\ blacklisted (trace o)
      /\ ret o = -19
      /\ project core_probe_call (trace o) = [].
Proof.
  assert (Hnodev : 0 < @ENODEV (linux 0)) by (cbn; lia).
  assert (Hnomem : 0 < @ENOMEM (linux 0)) by (cbn; lia).
  split; [exact Hnodev|]. split; [exact Hnomem|].
  destruct (@probe_failures_negative (linux 0) machine (sim chipone) 1%N ∅
              machine0 Hnodev Hnomem) as (o & Hrun & _ & Hfail).
  exists o. split; [exact Hrun|].
  assert (Hb : blacklisted (trace o)).
  { vm_compute in Hrun. injection Hrun as <-. exists 9%N. left. reflexivity. }
  split; [exact Hb|].
  destruct Hfail as (Hret & _ & Hcore); [right; left; exact Hb|].
  split; [exact Hret | exact Hcore].
Defined.

(** The Chipone controller again: discovery and probe both stop at the
    blacklist. *)
Lemma blacklisted_device_not_probed_witness :
  0 < @ENODEV (linux 0)
  /\ (exists o,
        run (sim chipone) (@i2c_hid_acpi_get_descriptor (linux 0) 1%N)
          ∅ machine0 = Some o
        /\ blacklisted (trace o)
        /\ ret o = -19 /\ project dsm_answer (trace o) = [])
  /\ (exists o,
        run (sim chipone) (@i2c_hid_acpi_probe (linux 0) 1%N) ∅ machine0
        = Some o
        /\ blacklisted (trace o)
        /\ ret o = -19 /\ project core_probe_call (trace o) = []).
Proof.
  assert (Hnodev : 0 < @ENODEV (linux 0)) by (cbn; lia).
  split; [exact Hnodev|].
  destruct (@blacklisted_device_not_probed (linux 0) machine (sim chipone)
              1%N ∅ machine0 Hnodev)
    as (_ & (o1 & Hrun1 & H1) & (o2 & Hrun2 & H2)).
  split.
  - exists o1. split; [exact Hrun1|].
    assert (Hb : blacklisted (trace o1)).
    { vm_compute in Hrun1. injection Hrun1 as <-. exists 9%N. left.
      reflexivity. }
    split; [exact Hb|]. exact (H1 Hb).
  - exists o2. split; [exact Hrun2|].
    assert (Hb : blacklisted (trace o2)).
    { vm_compute in Hrun2. injection Hrun2 as <-. exists 9%N. left.
      reflexivity. }
    split; [exact Hb|]. destruct (H2 Hb) as (Hret & _ & _ & Hcore).
    split; [exact Hret | exact Hcore].
Defined.

(** The touchpad on a platform with low-power S0 idle: the bind succeeds
    and the wakeup calls stand before the hand-off. *)
Lemma probe_wakeup_flags_by_fadt_witness :
  0 < @ENODEV (linux (Z.shiftl 1 21)) /\ 0 < @ENOMEM (linux (Z.shiftl 1 21))
  /\ exists o,
      run (sim touchpad) (@i2c_hid_acpi_probe (linux (Z.shiftl 1 21)) 1%N)
        ∅ machine0 = Some o
      /\ ret o = 0
      /\ applies_wakeup_flags 1%N (trace o).
Proof.
  assert (Hnodev : 0 < @ENODEV (linux (Z.shiftl 1 21))) by (cbn; lia).
  assert (Hnomem : 0 < @ENOMEM (linux (Z.shiftl 1 21))) by (cbn; lia).
  split; [exact Hnodev|]. split; [exact Hnomem|].
  destruct (@probe_wakeup_flags_by_fadt (linux (Z.shiftl 1 21)) machine
              (sim touchpad) 1%N ∅ machine0 Hnodev Hnomem)
    as (o & Hrun & Hflags).
  exists o. split; [exact Hrun|].
  assert (Hret : ret o = 0).
  { vm_compute in Hrun. injection Hrun as <-. reflexivity. }
  split; [exact Hret|]. exact (Hflags Hret).
Defined.

(** The touchpad's record, three calls of the callback: one fix-up. *)
Lemma power_up_fixes_once_witness :
  touchpad_heap !! container_of (subclass_of 64%N) = Some (fresh_record 1%N)
  /\ exists o,
      run (sim touchpad) (i2c_hid_acpi_power_up_device (subclass_of 64%N))
        touchpad_heap machine0 = Some o
      /\ run (sim touchpad) (power_up_again 2 (subclass_of 64%N))
           touchpad_heap machine0 = Some o
      /\ ret o = 0
      /\ fix_ups (env o) = 1%nat.
Proof.
  assert (Hr : touchpad_heap !! container_of (subclass_of 64%N)
               = Some (fresh_record 1%N)) by reflexivity.
  split; [exact Hr|].
  destruct (@power_up_fixes_once machine (sim touchpad)
              (subclass_of 64%N) touchpad_heap machine0 _ Hr)
    as (o & Hrun & Hret & _ & _ & _ & _ & Hagain).
  exists o. split; [exact Hrun|]. split; [exact (Hagain 2%nat)|].
  split; [exact Hret|].
  vm_compute in Hrun. injection Hrun as <-. reflexivity.
Defined.

(** A record whose device has no ACPI companion: the callback returns 0. *)
Lemma power_up_returns_zero_witness :
  touchpad_heap !! container_of (subclass_of 64%N) = Some (fresh_record 1%N)
  /\ exists o,
      run (sim orphan) (i2c_hid_acpi_power_up_device (subclass_of 64%N))
        touchpad_heap machine0 = Some o
      /\ ret o = 0
      /\ trace o = [ Ev (ACPI_COMPANION (dev_of 1%N)) None ].
Proof.
  assert (Hr : touchpad_heap !! container_of (subclass_of 64%N)
               = Some (fresh_record 1%N)) by reflexivity.
  split; [exact Hr|].
  destruct (@power_up_returns_zero machine (sim orphan)
              (subclass_of 64%N) touchpad_heap machine0 _ Hr)
    as (o & Hrun & Hret & Hnone).
  exists o. split; [exact Hrun|]. split; [exact Hret|].
  apply Hnone. vm_compute in Hrun. injection Hrun as <-. left. reflexivity.
Defined.


(** The touchpad behind a failing core driver, on a platform with low-power
    S0 idle: probe returns the core's -5 and the device stays
    wakeup-capable with wakeup disabled. *)
Lemma probe_keeps_wakeup_settings_witness :
  @low_power_s0 (linux (Z.shiftl 1 21)) = true
  /\ exists o,
      run (sim touchpad_core_fails)
        (@i2c_hid_acpi_probe (linux (Z.shiftl 1 21)) 1%N) ∅ machine0 = Some o
      /\ ret o = -5
      /\ can_wakeup (env o) = true
      /\ should_wakeup (env o) = false.
Proof.
  assert (Hs0 : @low_power_s0 (linux (Z.shiftl 1 21)) = true) by reflexivity.
  split; [exact Hs0|].
  destruct (@probe_keeps_wakeup_settings (linux (Z.shiftl 1 21)) machine
              (sim touchpad_core_fails) 1%N ∅ machine0 Hs0)
    as (o & Hrun & Hcore).
  exists o. split; [exact Hrun|].
  destruct (Hcore 1%N (subclass_of 64%N) 0x20 (-5))
    as (pre & e & Htrace & _ & _ & Hret & Henv).
  { vm_compute in Hrun. injection Hrun as <-. left. reflexivity. }
  split; [exact Hret|].
  vm_compute in Hrun. injection Hrun as <-. split; reflexivity.
Defined.

(** * Further properties of the routines *)

Section Discovery.
Context {P : Platform} {W : Type} (kernel : handler W).

(** X1.  Descriptor discovery only asks: it leaves the adapter's memory as
    it found it, and every call it makes is a lookup in the ACPI namespace,
    the _DSM evaluation, the release of the _DSM result or an error message;
    it allocates nothing, changes no power or wakeup setting and does not
    enter the core driver. *)
Theorem discovery_only_asks client h w :
  exists o,
    run kernel (i2c_hid_acpi_get_descriptor client) h w = Some o
    /\ mem o = h
    /\ forallb discovery_call (trace o) = true
    /\ project kzalloc_answer (trace o) = []
    /\ project fix_up_call (trace o) = []
    /\ project set_power_call (trace o) = []
    /\ project wakeup_call (trace o) = []
    /\ project core_probe_call (trace o) = [].
Proof.
  destruct (get_descriptor_run kernel client h w)
    as ([r m e t] & Hrun & Hmem & Hpath).
  eexists; split; [exact Hrun|]. clear Hrun. cbn in *.
  split; [exact Hmem|].
  inversion Hpath; subst; cbn; repeat split.
Qed.

(** X2.  The object a _DSM evaluation returns is released exactly once, and
    nothing else is: in a run of discovery, and in a run of probe, the
    objects handed to [ACPI_FREE] are the objects the evaluations returned,
    in the same order; a failed evaluation releases nothing. *)
Theorem dsm_object_freed_once client h w :
  (exists o,
      run kernel (i2c_hid_acpi_get_descriptor client) h w = Some o
      /\ project free_call (trace o) = returned_objects (trace o))
  /\ (exists o,
        run kernel (i2c_hid_acpi_probe client) h w = Some o
        /\ project free_call (trace o) = returned_objects (trace o)).
Proof.
  split.
  - destruct (get_descriptor_run kernel client h w)
      as ([r m e t] & Hrun & _ & Hpath).
    eexists; split; [exact Hrun|]. clear Hrun. cbn in *.
    inversion Hpath; subst; reflexivity.
  - destruct (probe_run kernel client h w) as ([r m e t] & Hrun & Hpath).
    eexists; split; [exact Hrun|]. clear Hrun. cbn in *.
    probe_paths Hpath; reflexivity.
Qed.

(** X3.  Probe logs at most one error message, about the client's device:
    the message of line 58 exactly when no ACPI device is found, the message
    of line 68 exactly when the _DSM evaluation fails.  A failed allocation,
    a blacklisted device and a successful discovery log nothing. *)
Theorem probe_error_messages client h w :
  exists o,
    run kernel (i2c_hid_acpi_probe client) h w = Some o
    /\ (no_acpi_device (trace o) <->
        project err_msg (trace o) = [ (dev_of client, no_acpi_device_msg) ])
    /\ (dsm_failed (trace o) <->
        project err_msg (trace o) = [ (dev_of client, dsm_failed_msg) ])
    /\ (allocation_failed (trace o) \/ blacklisted (trace o)
        \/ (exists obj, descriptor_found obj (trace o)) ->
        project err_msg (trace o) = [])
    /\ (length (project err_msg (trace o)) <= 1)%nat.
Proof.
  destruct (probe_run kernel client h w) as ([r m e t] & Hrun & Hpath).
  eexists; split; [exact Hrun|]. clear Hrun. cbn in *.
  unfold no_acpi_device, dsm_failed, allocation_failed, blacklisted,
    descriptor_found.
  assert (Hmsg : no_acpi_device_msg <> dsm_failed_msg) by discriminate.
  probe_paths Hpath.
  all: split; [split; [intros [Hc|Hc] | intros Hc] |
               split; [split; intros Hc |
                       split; [intros [Hc|[[adev' Hc]|[obj' Hc]]] | lia]]].
  all: cbn in Hc; try reflexivity; try (left; left; reflexivity);
    try (right; left; reflexivity); try (left; reflexivity).
  all: intuition (try discriminate; try congruence).
Qed.

(** X4.  Discovery evaluates _DSM only with the handle [ACPI_HANDLE] gave
    for the client's device, the HID-over-I2C GUID, revision 1, function 1,
    no argument package and the integer type, and only after the ACPI device
    of that handle was found and its match against the blacklist returned a
    status other than 0. *)
Theorem dsm_evaluated_on_checked_device client h w :
  exists o,
    run kernel (i2c_hid_acpi_get_descriptor client) h w = Some o
    /\ forall c,
        In c (project dsm_call (trace o)) ->
        exists handle adev m pre post,
          c = (handle, i2c_hid_guid, 1, 1, None, ACPI_TYPE_INTEGER)
          /\ trace o =
             [ Ev (ACPI_HANDLE (dev_of client)) (Some handle);
               Ev (acpi_bus_get_device handle) (Some adev);
               Ev (acpi_match_device_ids adev i2c_hid_acpi_blacklist) m ]
             ++ pre :: post
          /\ dsm_call pre = Some c
          /\ m <> 0.
Proof.
  destruct (get_descriptor_run kernel client h w)
    as ([r m e t] & Hrun & _ & Hpath).
  eexists; split; [exact Hrun|]. clear Hrun. cbn in *. intros c Hc.
  inversion Hpath; subst; cbn in Hc; try tauto.
  all: destruct Hc as [<-|[]].
  all: eexists _, _, _, _, _.
  all: split; [reflexivity|]; split; [reflexivity|].
  all: split; [reflexivity | assumption].
Qed.

End Discovery.

Section Binding.
Context {P : Platform} {W : Type} (kernel : handler W).

(** X5.  The status probe returns has one of three sources, whatever the
    errno values are: either the core driver's probe was not called and the
    status is [-ENOMEM] or [-ENODEV], or it was called exactly once, on the
    client and the record allocated in this run with a descriptor address
    between 0 and 65535, and the status is the one it returned. *)
Theorem probe_status_sources client h w :
  exists o,
    run kernel (i2c_hid_acpi_probe client) h w = Some o
    /\ ((project core_probe_call (trace o) = []
         /\ (ret o = - ENOMEM \/ ret o = - ENODEV))
        \/ exists p a,
            project kzalloc_answer (trace o) = [Some p]
            /\ project core_probe_call (trace o)
               = [ (client, subclass_of p, a, ret o) ]
            /\ 0 <= a <= 65535).
Proof.
  destruct (probe_run kernel client h w) as ([r m e t] & Hrun & Hpath).
  eexists; split; [exact Hrun|]. clear Hrun. cbn in *.
  probe_paths Hpath; try u16_absurd.
  all: try (left; split; [reflexivity | auto]; fail).
  all: right; eexists _, _; split; [reflexivity|]; split; [reflexivity|].
  all: match goal with |- 0 <= to_u16 ?v <= _ =>
         pose proof (to_u16_range v); lia end.
Qed.


(** X7.  The allocation comes first and only once: the first call of a run
    of probe is [devm_kzalloc] for the client's device and no later call is;
    when it fails it is the only call, so the firmware is not queried. *)
Theorem probe_allocates_first client h w :
  exists o,
    run kernel (i2c_hid_acpi_probe client) h w = Some o
    /\ exists a rest,
        trace o = Ev (devm_kzalloc (dev_of client)) a :: rest
        /\ project kzalloc_answer rest = []
        /\ (a = None -> rest = []).
Proof.
  destruct (probe_run kernel client h w) as ([r m e t] & Hrun & Hpath).
  eexists; split; [exact Hrun|]. clear Hrun. cbn in *.
  probe_paths Hpath.
  all: eexists _, _; split; [reflexivity|]; split; [reflexivity|].
  all: try reflexivity; intros [=].
Qed.

(** X11.  The wakeup calls go with the hand-off: a run of probe makes
    them, capable then enable, exactly when it calls the core driver's probe
    on a platform that advertises low-power S0 idle; a run that fails before
    the hand-off makes no wakeup call on any platform. *)
Theorem probe_wakeup_calls client h w :
  exists o,
    run kernel (i2c_hid_acpi_probe client) h w = Some o
    /\ project wakeup_call (trace o)
       = match project core_probe_call (trace o) with
         | [] => []
         | _ :: _ =>
             if low_power_s0
             then [ inl (dev_of client, true); inr (dev_of client, false) ]
             else []
         end.
Proof.
  destruct (probe_run kernel client h w) as ([r m e t] & Hrun & Hpath).
  eexists; split; [exact Hrun|]. clear Hrun. cbn in *.
  inversion Hpath as [ | ?p ?tr ?r Hd Hr | ?p ?tr ?r ?e ?s Hd Hr ]; subst;
    [ | inversion Hd; subst .. ]; unfold wakeup_calls;
    destruct low_power_s0; reflexivity.
Qed.

(** X8.  Probe sets the callback up for the core driver.  In a run in
    which discovery succeeds on a record at [p], the core's probe is handed
    the descriptor of that record, and at the moment of the hand-off the
    record names the power-up routine as its callback.  The first run of
    that callback on the descriptor, from the memory of the hand-off and
    any state of the kernel, returns 0, sets the record's flag and starts
    with the lookup of the ACPI companion of the probed client's device,
    followed by the fix-up when there is a companion.  This holds also when
    the address held a record with its flag set before the probe. *)
Theorem probed_descriptor_powers_up client h w p handle adev m obj :
  m <> 0 ->
  answered kernel (discovery_answers client p handle adev m obj) w ->
  exists o a hm rec,
    run kernel (i2c_hid_acpi_probe client) h w = Some o
    /\ project core_probe_call (trace o)
       = [ (client, subclass_of p, a, ret o) ]
    /\ mem_at_call kernel is_core_probe (i2c_hid_acpi_probe client) h w
       = Some hm
    /\ hm !! p = Some rec
    /\ power_up_device (subclass rec) = Some fn_i2c_hid_acpi_power_up_device
    /\ forall w',
        exists o' adev',
          run kernel
            (callback_body fn_i2c_hid_acpi_power_up_device (subclass_of p))
            hm w' = Some o'
          /\ ret o' = 0
          /\ mem o' !! p = Some (set_power_fixed true (fresh_record client))
          /\ project companion_answer (trace o') = [adev']
          /\ exists tl,
              trace o' = Ev (ACPI_COMPANION (dev_of client)) adev' :: tl
              /\ project fix_up_call tl
                 = match adev' with Some d => [d] | None => [] end.
Proof.
  intros Hm Hans.
  destruct (probe_found_run kernel client h w p handle adev m obj Hm Hans)
    as (o & e & s & Hrun & Htrace & Hret & Hat).
  assert (Hp : <[p := fresh_record client]> h !! p
               = Some (fresh_record client)) by apply lookup_insert_eq.
  exists o, (to_u16 (integer_value obj)), (<[p := fresh_record client]> h),
    (fresh_record client).
  split; [exact Hrun|]. split.
  { rewrite Htrace, Hret. unfold wakeup_calls.
    destruct low_power_s0; reflexivity. }
  split; [exact Hat|]. split; [exact Hp|]. split; [reflexivity|].
  intros w'.
  destruct (power_up_run kernel (subclass_of p) _ w' _ Hp)
    as ([z m' e' t'] & Hrun' & Hz & Hmem & Htr).
  cbn in Hz, Hmem, Htr. subst z m'.
  destruct Htr as (adev' & x & ->).
  eexists _, adev'.
  split; [exact Hrun'|]. split; [reflexivity|].
  split; [apply lookup_insert_eq|].
  destruct adev'; cbn; (split; [reflexivity|]); eexists; split; reflexivity.
Qed.

End Binding.

Section Records.
Context {W : Type} (kernel : handler W).

#[local] Set Warnings "-clear-no-such-hyp".

Lemma set_power_fixed_twice r :
  set_power_fixed true (set_power_fixed true r) = set_power_fixed true r.
Proof. reflexivity. Qed.

(** The calls on several records, given a set [F] of addresses whose flag
    is known to be set: every lookup is for a record outside [F]. *)
Lemma power_up_each_run subs : forall h w (F : gset ptr),
  (forall s, s ∈ subs -> is_Some (h !! container_of s)) ->
  (forall q, q ∈ F -> exists r, h !! q = Some r /\ power_fixed r = true) ->
  exists o,
    run kernel (power_up_each subs) h w = Some o
    /\ ret o = 0
    /\ (length (project companion_answer (trace o))
        <= size (records subs ∖ F))%nat
    /\ (length (project fix_up_call (trace o))
        <= length (project companion_answer (trace o)))%nat
    /\ forall q,
        mem o !! q = if decide (q ∈ records subs)
                     then set_power_fixed true <$> h !! q
                     else h !! q.
Proof.
  unfold records.
  induction subs as [|s rest IH]; intros h w F Halloc Hfixed.
  - eexists; split; [reflexivity|]. cbn. repeat split; lia.
  - destruct (Halloc s) as [r Hr]; [left|].
    destruct (power_up_run kernel s h w r Hr)
      as ([z m e t] & Hrun & Hret & Hmem & Htrace).
    cbn in Hret, Hmem, Htrace. subst z m.
    set (p := container_of s) in *.
    set (h1 := <[p := set_power_fixed true r]> h) in *.
    destruct (IH h1 e (F ∪ {[p]})) as (o & Hrest & Hret & Hlook & Hfix & Hm).
    { intros s' Hs'. unfold h1.
      destruct (decide (container_of s' = p)) as [->|Hne].
      - rewrite lookup_insert_eq. eauto.
      - rewrite lookup_insert_ne by congruence. apply Halloc. now right. }
    { intros q Hq. unfold h1. destruct (decide (q = p)) as [->|Hne].
      - rewrite lookup_insert_eq. eauto.
      - rewrite lookup_insert_ne by congruence. apply Hfixed. set_solver. }
    cbn [power_up_each]. rewrite run_bind, Hrun. cbn. rewrite Hrest. cbn.
    eexists; split; [reflexivity|]. cbn. split; [exact Hret|].
    split; [|split].
    + unfold project in *. rewrite omap_app, length_app.
      set (B := list_to_set (container_of <$> rest) : gset ptr) in *.
      change (container_of s) with p.
      destruct (power_fixed r) eqn:Hflag.
      * destruct Htrace as [-> _].
        assert (Hsub : (size (B ∖ (F ∪ {[p]})) <= size (({[p]} ∪ B) ∖ F))%nat)
          by (apply subseteq_size; set_solver).
        simpl length. lia.
      * destruct Htrace as (adev & x & ->).
        assert (Hp : p ∉ F).
        { intros Hin. destruct (Hfixed p Hin) as (r' & Hr' & Hflag').
          rewrite Hr in Hr'. injection Hr' as <-. congruence. }
        assert (Hone : (size ({[p]} ∪ B ∖ (F ∪ {[p]}))
                        <= size (({[p]} ∪ B) ∖ F))%nat)
          by (apply subseteq_size; set_solver).
        rewrite size_union, size_singleton in Hone by set_solver.
        assert (Hlen : length (omap companion_answer
                         (Ev (ACPI_COMPANION (dev_of (client r))) adev
                          :: match adev with
                             | Some a => [Ev (acpi_device_fix_up_power a) x]
                             | None => []
                             end)) = 1%nat) by (destruct adev; reflexivity).
        rewrite Hlen. lia.
    + unfold project in *. rewrite !omap_app, !length_app.
      destruct (power_fixed r).
      * destruct Htrace as [-> _]. cbn. lia.
      * destruct Htrace as (adev & x & ->). destruct adev; cbn; lia.
    + intros q. rewrite Hm. unfold h1.
      destruct (decide (q = p)) as [->|Hne].
      * rewrite lookup_insert_eq, Hr. cbn [fmap option_fmap option_map].
        repeat case_decide; try reflexivity; set_solver.
      * rewrite lookup_insert_ne by congruence.
        repeat case_decide; try reflexivity; set_solver.
Qed.

(** X9.  Over any sequence of calls of the power-up callback on the
    descriptors of any allocated records, the ACPI companion is looked up,
    and so the fix-up requested, at most once per record: the number of
    lookups is at most the number of distinct records in the sequence and
    the number of fix-ups at most the number of lookups.  The sequence
    returns 0, leaves every record it addressed with its flag set and its
    other members as they were, and leaves every other record alone. *)
Theorem power_up_each_once_per_record subs h w :
  (forall s, s ∈ subs -> is_Some (h !! container_of s)) ->
  exists o,
    run kernel (power_up_each subs) h w = Some o
    /\ ret o = 0
    /\ (length (project fix_up_call (trace o))
        <= length (project companion_answer (trace o))
        <= size (records subs))%nat
    /\ forall q,
        mem o !! q = if decide (q ∈ records subs)
                     then set_power_fixed true <$> h !! q
                     else h !! q.
Proof.
  intros Halloc.
  destruct (power_up_each_run subs h w ∅ Halloc)
    as (o & Hrun & Hret & Hlook & Hfix & Hm); [set_solver|].
  exists o. split; [exact Hrun|]. split; [exact Hret|].
  split; [|exact Hm].
  replace (records subs ∖ ∅) with (records subs) in Hlook by set_solver.
  lia.
Qed.

(** X10.  Shutdown does not look at the adapter's memory: it runs the same
    on any memory, with or without a record for the client, and leaves it
    unchanged.  It does not check the companion it looks up: the answer goes
    to [acpi_device_set_power] as it is, so when there is no companion the
    call is made with NULL, where the power-up callback skips its call. *)
Theorem shutdown_passes_companion_unchecked client h w :
  exists o,
    run kernel (i2c_hid_acpi_shutdown client) h w = Some o
    /\ mem o = h
    /\ (exists adev,
          project companion_answer (trace o) = [adev]
          /\ project set_power_call (trace o)
             = [ (adev, ACPI_STATE_D3_COLD) ])
    /\ project err_msg (trace o) = []
    /\ forall sub r,
        h !! container_of sub = Some r ->
        exists o',
          run kernel (i2c_hid_acpi_power_up_device sub) h w = Some o'
          /\ (In None (project companion_answer (trace o')) ->
              project fix_up_call (trace o') = []).
Proof.
  destruct (shutdown_run kernel client h w)
    as ([[] m e t] & adev & s & Hrun & Hmem & Htrace).
  cbn in Hmem, Htrace. subst m t.
  eexists; split; [exact Hrun|]. cbn.
  split; [reflexivity|]. split; [eexists; split; reflexivity|].
  split; [reflexivity|].
  intros sub r Hr.
  destruct (power_up_run kernel sub h w r Hr)
    as ([z m' e' t'] & Hrun' & _ & _ & Htrace).
  eexists; split; [exact Hrun'|]. cbn in *.
  destruct (power_fixed r).
  - destruct Htrace as [-> _]. reflexivity.
  - destruct Htrace as ([a|] & x & ->); cbn; [|reflexivity].
    intros [[=]|[]].
Qed.

End Records.

(** Five calls of the callback, alternating between the records of two
    touchpads: two lookups, two fix-ups. *)
Lemma power_up_each_once_per_record_witness :
  let subs := [ subclass_of 64%N; subclass_of 128%N; subclass_of 64%N;
                subclass_of 128%N; subclass_of 64%N ] in
  (forall s, s ∈ subs -> is_Some (two_touchpads_heap !! container_of s))
  /\ exists o,
      run (sim touchpad) (power_up_each subs) two_touchpads_heap machine0
      = Some o
      /\ ret o = 0
      /\ length (project companion_answer (trace o)) = 2%nat
      /\ fix_ups (env o) = 2%nat.
Proof.
  intros subs.
  assert (Halloc : forall s, s ∈ subs ->
                             is_Some (two_touchpads_heap !! container_of s)).
  { intros s Hs. unfold subs in Hs.
    repeat (apply elem_of_cons in Hs as [->|Hs]); try (eexists; reflexivity).
    inversion Hs. }
  split; [exact Halloc|].
  destruct (@power_up_each_once_per_record machine (sim touchpad) subs
              two_touchpads_heap machine0 Halloc)
    as (o & Hrun & Hret & _ & _).
  exists o. split; [exact Hrun|]. split; [exact Hret|].
  vm_compute in Hrun. injection Hrun as <-. split; reflexivity.
Defined.

(** The touchpad on a platform with low-power S0 idle: the kernel's answers
    make discovery succeed, and probe hands over to the core with address
    0x20 and returns the core's 0. *)
Lemma probe_forwards_to_core_witness :
  -2 <> 0
  /\ answered (sim touchpad)
       (discovery_answers 1%N 64%N 7%N 9%N (-2)
          {| integer_value := 0x10020 |}) machine0
  /\ exists o,
      run (sim touchpad) (@i2c_hid_acpi_probe (linux (Z.shiftl 1 21)) 1%N)
        ∅ machine0 = Some o
      /\ project core_probe_call (trace o)
         = [ (1%N, subclass_of 64%N, 0x20, 0) ]
      /\ ret o = 0.
Proof.
  assert (Hm : -2 <> 0) by lia.
  assert (Hans : answered (sim touchpad)
                   (discovery_answers 1%N 64%N 7%N 9%N (-2)
                      {| integer_value := 0x10020 |}) machine0)
    by (cbn; repeat split).
  split; [exact Hm|]. split; [exact Hans|].
  destruct (@probe_forwards_to_core (linux (Z.shiftl 1 21)) machine
              (sim touchpad) 1%N ∅ machine0 _ _ _ _ _ Hm Hans)
    as (o & e & s & Hrun & _ & Hcore & _ & Hret).
  exists o. split; [exact Hrun|].
  assert (Hs : s = 0).
  { rewrite <- Hret. vm_compute in Hrun. injection Hrun as <-. reflexivity. }
  rewrite Hret, Hs in *. split; [exact Hcore | reflexivity].
Defined.


(** The touchpad again: the callback of the record handed to the core,
    run from the memory of the hand-off, returns 0 and asks for the fix-up
    once. *)
Lemma probed_descriptor_powers_up_witness :
  -2 <> 0
  /\ answered (sim touchpad)
       (discovery_answers 1%N 64%N 7%N 9%N (-2)
          {| integer_value := 0x10020 |}) machine0
  /\ exists hm o',
      mem_at_call (sim touchpad) is_core_probe
        (@i2c_hid_acpi_probe (linux 0) 1%N) ∅ machine0 = Some hm
      /\ run (sim touchpad)
           (callback_body fn_i2c_hid_acpi_power_up_device (subclass_of 64%N))
           hm machine0 = Some o'
      /\ ret o' = 0
      /\ project fix_up_call (trace o') = [ 9%N ].
Proof.
  assert (Hm : -2 <> 0) by lia.
  assert (Hans : answered (sim touchpad)
                   (discovery_answers 1%N 64%N 7%N 9%N (-2)
                      {| integer_value := 0x10020 |}) machine0)
    by (cbn; repeat split).
  split; [exact Hm|]. split; [exact Hans|].
  destruct (@probed_descriptor_powers_up (linux 0) machine (sim touchpad)
              1%N ∅ machine0 _ _ _ _ _ Hm Hans)
    as (o & a & hm & rec & _ & _ & Hat & _ & _ & Hcb).
  destruct (Hcb machine0)
    as (o' & adev' & Hrun' & Hret' & _ & Hlook & tl & Htl & Hfix).
  exists hm, o'. split; [exact Hat|]. split; [exact Hrun'|].
  split; [exact Hret'|].
  assert (Hadev : adev' = Some 9%N).
  { vm_compute in Hat. injection Hat as <-.
    vm_compute in Hrun'. injection Hrun' as <-.
    cbn in Hlook. now injection Hlook as <-. }
  subst adev'. rewrite Htl. exact Hfix.
Defined.
